(** * Semantic-search service (main.py): filter builder, search
      orchestration and HTTP layer.

    The embedding provider, the vector index, the log sink and Python's
    built-in [round] are external collaborators: they are fields of an
    environment record, and every call made to one of them is recorded in a
    trace, so that statements can speak about what the index was asked. *)

From Stdlib Require Import String Ascii List ZArith Bool Lia.
From Stdlib Require Import Floats.SpecFloat.
Import ListNotations.
Set Warnings "-register-all".
Open Scope string_scope.
Open Scope Z_scope.

(** ** Python strings

    A [str] is modelled as a [string] whose characters are code points below
    256.  [isspace] is [str.isspace] on that range: TAB..CR, FS..US, SPACE,
    NEL (0x85) and NBSP (0xA0). *)

Module PyStr.

Definition isspace (c : ascii) : bool :=
  let n := N_of_ascii c in
  ((9 <=? n) && (n <=? 13) || (28 <=? n) && (n <=? 32)
   || (n =? 133) || (n =? 160))%N.

Fixpoint lstrip (s : string) : string :=
  match s with
  | EmptyString => EmptyString
  | String c s' => if isspace c then lstrip s' else s
  end.

(** [rstrip] keeps a character when it is not a space or when something
    survives to its right. *)
Fixpoint rstrip (s : string) : string :=
  match s with
  | EmptyString => EmptyString
  | String c s' =>
      match rstrip s' with
      | EmptyString => if isspace c then EmptyString else String c EmptyString
      | r => String c r
      end
  end.

Definition strip (s : string) : string := rstrip (lstrip s).

(** [s != ""] *)
Definition nonempty (s : string) : bool :=
  match s with EmptyString => false | String _ _ => true end.

(** Every character of [s] is white space ([s] may be empty). *)
Fixpoint blank (s : string) : bool :=
  match s with
  | EmptyString => true
  | String c s' => isspace c && blank s'
  end.

End PyStr.

(** ** Python values that occur as filter values

    The HTTP schema declares [Dict[str, str]]; [search_permits] itself takes
    any [dict] and tests [value is not None], so [None] is a value too. *)

Inductive pyval : Type :=
| PyNone
| PyStr (s : string).

(** [str(value)] *)
Definition py_str (v : pyval) : string :=
  match v with
  | PyNone => "None"
  | PyStr s => s
  end.

(** [value is not None] *)
Definition is_not_None (v : pyval) : bool :=
  match v with PyNone => false | PyStr _ => true end.

(** A [dict] keeps insertion order: an association list. *)
Definition dict (V : Type) : Type := list (string * V).

(** Truth value of an optional dict, as in [if filters:]. *)
Definition truthy {V : Type} (d : option (dict V)) : bool :=
  match d with
  | None => false
  | Some [] => false
  | Some (_ :: _) => true
  end.

(** ** Filter builder (main.py, lines 62-69) *)

(** One condition: the single-entry dict [{key: value}]. *)
Definition condition : Type := dict pyval.

(** The predicate: [{"$and": and_conditions}]. *)
Definition where_doc : Type := dict (list condition).

(** [value is not None and str(value).strip() != ""] *)
Definition keeps (v : pyval) : bool :=
  is_not_None v && PyStr.nonempty (PyStr.strip (py_str v)).

(** The loop over [filters.items()], appending to [and_conditions]. *)
Fixpoint collect_conditions (items : dict pyval) (and_conditions : list condition)
  : list condition :=
  match items with
  | [] => and_conditions
  | (key, value) :: rest =>
      if keeps value
      then collect_conditions rest (and_conditions ++ [[(key, value)]])%list
      else collect_conditions rest and_conditions
  end.

Definition build_where (filters : option (dict pyval)) : option where_doc :=
  let where_clause := None in
  if truthy filters then
    match filters with
    | Some items =>
        let and_conditions := collect_conditions items [] in
        match and_conditions with
        | [] => where_clause
        | _ :: _ => Some [("$and", and_conditions)]
        end
    | None => where_clause
    end
  else where_clause.

(** ** Exceptions, results and the call trace *)

(** An instance of Python's [Exception]; [str(e)] is its message. *)
Record exn : Type := PyExc { exn_class : string; exn_message : string }.

Definition str_exn (e : exn) : string := exn_message e.

(** [fastapi.HTTPException(status_code=..., detail=...)] *)
Record HTTPException : Type :=
  MkHTTPException { status_code : Z; detail : string }.

Inductive result (E A : Type) : Type :=
| Ok (a : A)
| Raise (e : E).
Arguments Ok {E A} a.
Arguments Raise {E A} e.

(** A Python [float] is an IEEE-754 binary64 value. *)
Definition float : Type := spec_float.

Definition metadata : Type := dict string.

(** What [collection.query] returns: one inner list per query embedding. *)
Record QueryResult : Type := MkQueryResult {
  documents : list (list string);
  metadatas : list (list metadata);
  distances : list (list float)
}.

(** The dict built at lines 88-92. *)
Record log_entry : Type := MkLogEntry {
  le_query : string;
  le_filters : option (dict pyval);
  le_top_results : QueryResult
}.

(** One entry of [response.data] of the embedding provider. *)
Record embedding_datum : Type := MkDatum { embedding : list float }.

(** Calls that leave the service, in the order they are made. *)
Inductive event : Type :=
| EvEmbeddingsCreate (input : list string) (model : string)
| EvQuery (query_embeddings : list (list float)) (n_results : option Z)
          (where_ : option where_doc) (include : list string)
| EvLoggingInfo (prefix : string) (entry : log_entry).

Definition trace : Type := list event.

(** The collaborators of the service and the built-in [round]. *)
Record Env : Type := MkEnv {
  embeddings_create : list string -> string -> result exn (list embedding_datum);
  collection_query : list (list float) -> option Z -> option where_doc ->
                     list string -> result exn QueryResult;
  logging_info : string -> log_entry -> result exn unit;
  round : float -> Z -> float
}.

(** Computations that may raise an [E] and that extend the trace. *)
Definition M (E A : Type) : Type := trace -> result E A * trace.

Definition ret {E A : Type} (a : A) : M E A := fun t => (Ok a, t).

Definition raise {E A : Type} (e : E) : M E A := fun t => (Raise e, t).

Definition bind {E A B : Type} (c : M E A) (k : A -> M E B) : M E B :=
  fun t =>
    match c t with
    | (Ok a, t') => k a t'
    | (Raise e, t') => (Raise e, t')
    end.

(** [try: c  except Exception as e: h e] *)
Definition try_except {E F A : Type} (c : M E A) (h : E -> M F A) : M F A :=
  fun t =>
    match c t with
    | (Ok a, t') => (Ok a, t')
    | (Raise e, t') => h e t'
    end.

(** An external call: record it, then return or raise what it does. *)
Definition call {A : Type} (ev : event) (r : result exn A) : M exn A :=
  fun t => (r, (t ++ [ev])%list).

Declare Scope py_scope.
Delimit Scope py_scope with py.
Notation "x <- c ;; k" := (bind c (fun x => k))
  (at level 61, c at next level, right associativity) : py_scope.
Notation "c ;;; k" := (bind c (fun _ => k))
  (at level 61, right associativity) : py_scope.
Open Scope py_scope.

(** [xs[0]] *)
Definition index0 {A : Type} (xs : list A) : M exn A :=
  match xs with
  | x :: _ => ret x
  | [] => raise (PyExc "IndexError" "list index out of range")
  end.

(** [zip(a, b, c)]: stops at the shortest. *)
Fixpoint zip3 {A B C : Type} (a : list A) (b : list B) (c : list C)
  : list (A * B * C) :=
  match a, b, c with
  | x :: a', y :: b', z :: c' => (x, y, z) :: zip3 a' b' c'
  | _, _, _ => []
  end.

(** ** Embedding client (main.py, lines 27-32) *)

Definition get_embedding (env : Env) (text : string) : M exn (list float) :=
  data <- call (EvEmbeddingsCreate [text] "text-embedding-3-small")
               (embeddings_create env [text] "text-embedding-3-small") ;;
  d <- index0 data ;;
  ret (embedding d).

(** ** Search orchestrator (main.py, lines 56-99) *)

Record SearchResultItem : Type := MkItem {
  document : string;
  item_metadata : metadata;
  similarity_score : float
}.

Definition include_fields : list string := ["documents"; "metadatas"; "distances"].

(** The body of the [for] loop at lines 81-86, one neighbour at a time. *)
Definition shape (env : Env) (n : string * metadata * float) : SearchResultItem :=
  let '(doc, meta, dist) := n in
  MkItem doc meta (round env dist 4).

(** The statements inside [try:]. *)
Definition search_permits_try (env : Env) (query : string)
    (filters : option (dict pyval)) (top_k : option Z)
  : M exn (list SearchResultItem) :=
  query_embedding <- get_embedding env query ;;
  let where_clause := build_where filters in
  results <- call (EvQuery [query_embedding] top_k where_clause include_fields)
                  (collection_query env [query_embedding] top_k where_clause
                                    include_fields) ;;
  docs <- index0 (documents results) ;;
  metas <- index0 (metadatas results) ;;
  dists <- index0 (distances results) ;;
  let output := map (shape env) (zip3 docs metas dists) in
  let entry := MkLogEntry query filters results in
  call (EvLoggingInfo "Search Query Log: " entry)
       (logging_info env "Search Query Log: " entry) ;;;
  ret output.

Definition search_permits (env : Env) (query : string)
    (filters : option (dict pyval)) (top_k : option Z)
  : M HTTPException (list SearchResultItem) :=
  try_except (search_permits_try env query filters top_k)
             (fun e => raise (MkHTTPException 500 (str_exn e))).

(** ** The logger (main.py, lines 16-20 and 94)

    [logging.basicConfig(filename='query_logs.log', ...)] installs a file
    handler on the root logger, and [logging.info] hands the record to it.
    The handler's [emit] writes to its stream inside
<<
    try: ... stream.write(msg + self.terminator) ...
    except Exception: self.handleError(record)
>>
    so a write that the sink refuses is reported on the standard error
    stream and is not raised to the caller of [logging.info]. *)
Definition handler_emit (stream_write : string -> log_entry -> result exn unit)
    (prefix : string) (entry : log_entry) : result exn unit :=
  match stream_write prefix entry with
  | Ok _ => Ok tt
  | Raise _ => Ok tt
  end.

(** The service with the standard handler in front of the log sink
    [stream_write]. *)
Definition with_log_sink (env : Env)
    (stream_write : string -> log_entry -> result exn unit) : Env :=
  MkEnv (embeddings_create env) (collection_query env)
        (handler_emit stream_write) (round env).

(** ** HTTP layer (main.py, lines 49-52 and 103-115) *)

(** A decoded JSON body; an object is the [dict] the decoder produced. *)
Inductive json : Type :=
| JNull
| JBool (b : bool)
| JInt (z : Z)
| JFloat (f : float)
| JString (s : string)
| JArray (l : list json)
| JObject (members : dict json).

(** [d.get(key)] *)
Fixpoint dict_get {V : Type} (key : string) (d : dict V) : option V :=
  match d with
  | [] => None
  | (k, v) :: rest => if String.eqb k key then Some v else dict_get key rest
  end.

(** The declared schema:
<<
    class SearchRequest(BaseModel):
        query: str
        filters: Optional[Dict[str, str]] = None
        top_k: Optional[int] = 5
>>
*)
Record SearchRequest : Type := MkSearchRequest {
  query : string;
  filters : option (dict pyval);
  top_k : option Z
}.

Inductive field_error : Type :=
| Missing (loc : list string)
| WrongType (loc : list string) (expected : string).

(** The three field checks below read a field from the JSON value of its
    declared type only.  The schema library may in addition convert a
    value of another kind (a numeric text or an integral float for
    [top_k], say); which values it converts depends on its version, such
    bodies are outside what is stated about validation, and they are
    answered here as a type error. *)

(** [query: str]: required, any text. *)
Definition validate_query (body : dict json) : result field_error string :=
  match dict_get "query" body with
  | None => Raise (Missing ["body"; "query"])
  | Some (JString s) => Ok s
  | Some _ => Raise (WrongType ["body"; "query"] "string")
  end.

(** Values of a [Dict[str, str]]. *)
Fixpoint validate_str_values (members : dict json) : option (dict pyval) :=
  match members with
  | [] => Some []
  | (k, JString s) :: rest =>
      match validate_str_values rest with
      | Some d => Some ((k, PyStr s) :: d)
      | None => None
      end
  | _ :: _ => None
  end.

(** [filters: Optional[Dict[str, str]] = None] *)
Definition validate_filters (body : dict json)
  : result field_error (option (dict pyval)) :=
  match dict_get "filters" body with
  | None => Ok None
  | Some JNull => Ok None
  | Some (JObject members) =>
      match validate_str_values members with
      | Some d => Ok (Some d)
      | None => Raise (WrongType ["body"; "filters"] "string")
      end
  | Some _ => Raise (WrongType ["body"; "filters"] "dict")
  end.

(** [top_k: Optional[int] = 5] *)
Definition validate_top_k (body : dict json) : result field_error (option Z) :=
  match dict_get "top_k" body with
  | None => Ok (Some 5)
  | Some JNull => Ok None
  | Some (JInt z) => Ok (Some z)
  | Some _ => Raise (WrongType ["body"; "top_k"] "integer")
  end.

Definition errors_of {A : Type} (r : result field_error A) : list field_error :=
  match r with
  | Ok _ => []
  | Raise e => [e]
  end.

(** Validation of a request body against [SearchRequest]; every failing
    field is reported. *)
Definition validate (body : json) : result (list field_error) SearchRequest :=
  match body with
  | JObject members =>
      match validate_query members, validate_filters members,
            validate_top_k members with
      | Ok q, Ok f, Ok k => Ok (MkSearchRequest q f k)
      | rq, rf, rk => Raise (errors_of rq ++ errors_of rf ++ errors_of rk)%list
      end
  | _ => Raise [WrongType ["body"] "dict"]
  end.

(** What a handler hands back, before serialisation. *)
Inductive content : Type :=
| CResults (d : dict (list SearchResultItem))
| CHealth (d : dict bool)
| CDetail (d : dict string)
| CValidation (d : dict (list field_error)).

Record Response : Type := MkResponse { status : Z; body : content }.

(** [search_vector], lines 104-110. *)
Definition search_vector (env : Env) (request : SearchRequest)
  : M HTTPException content :=
  results <- search_permits env (query request) (filters request)
                            (top_k request) ;;
  ret (CResults [("results", results)]).

(** [health_check], lines 114-115. *)
Definition health_check : content := CHealth [("ok", true)].

(** The framework around a handler: a returned value is a 200, a raised
    [HTTPException] becomes its status code with [{"detail": detail}]. *)
Definition respond (c : M HTTPException content) : trace -> Response * trace :=
  fun t =>
    match c t with
    | (Ok v, t') => (MkResponse 200 v, t')
    | (Raise e, t') =>
        (MkResponse (status_code e) (CDetail [("detail", detail e)]), t')
    end.

(** [POST /search]: the body is validated first; the handler runs on a
    valid body only. *)
Definition post_search (env : Env) (body : json) : trace -> Response * trace :=
  match validate body with
  | Raise errs => fun t => (MkResponse 422 (CValidation [("detail", errs)]), t)
  | Ok request => respond (search_vector env request)
  end.

(** [GET /healthz] *)
Definition get_healthz (env : Env) : trace -> Response * trace :=
  respond (ret health_check).

Inductive method : Type := GET | POST.

(** The two routes registered on [app]. *)
Definition app (env : Env) (m : method) (path : string) (body : json)
  : trace -> Response * trace :=
  if String.eqb path "/search" then
    match m with
    | POST => post_search env body
    | GET => fun t => (MkResponse 405 (CDetail [("detail", "Method Not Allowed")]), t)
    end
  else if String.eqb path "/healthz" then
    match m with
    | GET => get_healthz env
    | POST => fun t => (MkResponse 405 (CDetail [("detail", "Method Not Allowed")]), t)
    end
  else fun t => (MkResponse 404 (CDetail [("detail", "Not Found")]), t).

(** ** Views used in the statements *)

(** What the embedding client yields for [text], without the trace. *)
Definition embed_result (env : Env) (text : string) : result exn (list float) :=
  match embeddings_create env [text] "text-embedding-3-small" with
  | Ok (d :: _) => Ok (embedding d)
  | Ok [] => Raise (PyExc "IndexError" "list index out of range")
  | Raise e => Raise e
  end.

Definition is_query (ev : event) : bool :=
  match ev with EvQuery _ _ _ _ => true | _ => false end.

(** The calls made to the vector index during a run. *)
Definition index_calls (t : trace) : list event := filter is_query t.

(** The filter builder in the words of the specification: a value counts
    when it is present and its trimmed form is not empty. *)
Definition present_nonblank (v : pyval) : Prop :=
  v <> PyNone /\ PyStr.strip (py_str v) <> "".

(** One equality condition per entry that counts, in the order of the
    mapping; the other entries contribute nothing. *)
Inductive Selects : dict pyval -> list condition -> Prop :=
| Selects_nil : Selects [] []
| Selects_keep k v rest cs :
    present_nonblank v -> Selects rest cs ->
    Selects ((k, v) :: rest) ([(k, v)] :: cs)
| Selects_drop k v rest cs :
    ~ present_nonblank v -> Selects rest cs ->
    Selects ((k, v) :: rest) cs.

Definition ev_embed (q : string) : event :=
  EvEmbeddingsCreate [q] "text-embedding-3-small".

Definition ev_query (emb : list float) (k : option Z)
    (f : option (dict pyval)) : event :=
  EvQuery [emb] k (build_where f) include_fields.

Definition ev_log (q : string) (f : option (dict pyval)) (r : QueryResult)
  : event :=
  EvLoggingInfo "Search Query Log: " (MkLogEntry q f r).

(** The three inner lists the shaping loop walks over. *)
Definition first_row (r : QueryResult)
  : option (list string * list metadata * list float) :=
  match documents r, metadatas r, distances r with
  | docs :: _, metas :: _, dists :: _ => Some (docs, metas, dists)
  | _, _, _ => None
  end.

Ltac run_step :=
  cbv beta iota zeta delta
    [search_permits search_permits_try get_embedding try_except
     bind call ret raise index0 embed_result first_row
     ev_embed ev_query ev_log] in *.

(** The declared shape of a request body, in the words of the schema:
    [query] is text, [filters] is missing, null or an object whose values
    are text, [top_k] is missing, null or an integer. *)
Definition conforms (body : json) : Prop :=
  exists members,
    body = JObject members /\
    (exists s, dict_get "query" members = Some (JString s)) /\
    (dict_get "filters" members = None \/
     dict_get "filters" members = Some JNull \/
     exists ms, dict_get "filters" members = Some (JObject ms) /\
                Forall (fun kv => exists s, snd kv = JString s) ms) /\
    (dict_get "top_k" members = None \/
     dict_get "top_k" members = Some JNull \/
     exists z, dict_get "top_k" members = Some (JInt z)).

(** Neither text nor a scalar that could stand for text. *)
Definition not_text_like (j : json) : Prop :=
  match j with
  | JNull | JArray _ | JObject _ => True
  | _ => False
  end.

Definition is_structured (j : json) : Prop :=
  match j with
  | JArray _ | JObject _ => True
  | _ => False
  end.

Definition is_number_or_bool (j : json) : Prop :=
  match j with
  | JBool _ | JInt _ | JFloat _ => True
  | _ => False
  end.

(** A body that no conversion can bring to the declared shape: it is a
    scalar or null; or it is an object whose [query] is missing, null, an
    array or an object, whose [top_k] is an array or an object, whose
    [filters] is a number or a boolean, or whose [filters] is an object
    with a value that is null, an array or an object. *)
Definition malformed (body : json) : Prop :=
  match body with
  | JObject members =>
      dict_get "query" members = None \/
      (exists v, dict_get "query" members = Some v /\ not_text_like v) \/
      (exists v, dict_get "top_k" members = Some v /\ is_structured v) \/
      (exists v, dict_get "filters" members = Some v /\
                 is_number_or_bool v) \/
      (exists ms k v, dict_get "filters" members = Some (JObject ms) /\
                      In (k, v) ms /\ not_text_like v)
  | JArray _ => False
  | _ => True
  end.

(** What the service expects of the index: the three inner lists run in
    parallel and hold no more neighbours than the limit asked for. *)
Definition index_contract (env : Env) : Prop :=
  forall embs n w inc r docs metas dists,
    collection_query env embs (Some n) w inc = Ok r ->
    first_row r = Some (docs, metas, dists) ->
    length docs = length dists /\
    length metas = length dists /\
    Z.of_nat (length dists) <= n.

Definition is_log (ev : event) : bool :=
  match ev with EvLoggingInfo _ _ => true | _ => false end.

(** The entries handed to the logger during a run. *)
Definition log_calls (t : trace) : list event := filter is_log t.

(** ** A sample deployment, for evaluating the service *)

Module Sample.

(** 0.125, 0.25 and 0.5 as binary64 values. *)
Definition eighth : float := S754_finite false 4503599627370496 (-55).
Definition quarter : float := S754_finite false 4503599627370496 (-54).
Definition half : float := S754_finite false 4503599627370496 (-53).

Definition stored_documents : list string :=
  ["Electrical permit 101"; "Plumbing permit 202"; "Roofing permit 303"].

Definition stored_metadatas : list metadata :=
  [[("city", "Austin")]; [("city", "Austin")]; [("city", "Dallas")]].

Definition stored_distances : list float := [eighth; quarter; half].

(** An index of three neighbours that honours the limit and, like the
    real one, refuses a limit that is not a positive integer. *)
Definition index (embs : list (list float)) (n_results : option Z)
    (w : option where_doc) (inc : list string) : result exn QueryResult :=
  match n_results with
  | Some n =>
      if n <=? 0
      then Raise (PyExc "ValueError"
                    "Number of requested results cannot be negative, or zero.")
      else Ok (MkQueryResult [firstn (Z.to_nat n) stored_documents]
                             [firstn (Z.to_nat n) stored_metadatas]
                             [firstn (Z.to_nat n) stored_distances])
  | None => Raise (PyExc "ValueError" "Expected requested number of results to be a int")
  end.

(** The stored distances have fewer than four decimals: rounding leaves
    them as they are. *)
Definition env : Env :=
  MkEnv (fun _ _ => Ok [MkDatum [half; quarter]])
        index
        (fun _ _ => Ok tt)
        (fun x _ => x).

(** The embedding provider is unreachable. *)
Definition env_embedding_down : Env :=
  MkEnv (fun _ _ => Raise (PyExc "APIConnectionError" "Connection error."))
        index
        (fun _ _ => Ok tt)
        (fun x _ => x).

(** The index fails. *)
Definition env_index_down : Env :=
  MkEnv (fun _ _ => Ok [MkDatum [half; quarter]])
        (fun _ _ _ _ => Raise (PyExc "InternalError" "Connection error."))
        (fun _ _ => Ok tt)
        (fun x _ => x).

(** A log sink on a full device: every write is refused. *)
Definition sink_full (prefix : string) (entry : log_entry) : result exn unit :=
  Raise (PyExc "OSError" "[Errno 28] No space left on device").

Definition filters_austin : dict pyval :=
  [("city", PyStr "Austin"); ("state", PyStr "  "); ("zip", PyStr "");
   ("county", PyNone)].

Definition filters_blank : dict pyval :=
  [("city", PyStr ""); ("state", PyStr "   "); ("zip", PyNone)].

(** An index whose answer has no row at all. *)
Definition env_rowless : Env :=
  MkEnv (fun _ _ => Ok [MkDatum [half; quarter]])
        (fun _ _ _ _ => Ok (MkQueryResult [] [] []))
        (fun _ _ => Ok tt)
        (fun x _ => x).

(** An index whose three lists do not have the same length. *)
Definition env_ragged : Env :=
  MkEnv (fun _ _ => Ok [MkDatum [half; quarter]])
        (fun _ _ _ _ =>
           Ok (MkQueryResult [stored_documents]
                             [firstn 2 stored_metadatas]
                             [stored_distances]))
        (fun _ _ => Ok tt)
        (fun x _ => x).

End Sample.

(** * Properties *)

(** ** Trimming *)

Module PyStrFacts.
Import PyStr.

Lemma rstrip_empty (s : string) : rstrip s = "" <-> blank s = true.
Proof.
  induction s as [|c s IH]; simpl.
  - tauto.
  - destruct (rstrip s) eqn:R.
    + destruct (isspace c); simpl.
      * tauto.
      * split; discriminate.
    + split; [discriminate|].
      intros H. apply andb_true_iff in H as [_ H].
      apply IH in H. discriminate.
Qed.

Lemma blank_lstrip (s : string) : blank (lstrip s) = blank s.
Proof.
  induction s as [|c s IH]; simpl; [reflexivity|].
  destruct (isspace c) eqn:C; simpl.
  - exact IH.
  - now rewrite C.
Qed.

Lemma strip_empty (s : string) : strip s = "" <-> blank s = true.
Proof. unfold strip. now rewrite rstrip_empty, blank_lstrip. Qed.

Lemma nonempty_spec (s : string) : nonempty s = true <-> s <> "".
Proof. destruct s; simpl; split; congruence. Qed.

End PyStrFacts.

(** ** Filter builder *)

Lemma keeps_spec (v : pyval) : keeps v = true <-> present_nonblank v.
Proof.
  unfold keeps, present_nonblank.
  rewrite andb_true_iff, PyStrFacts.nonempty_spec.
  destruct v; simpl; split; intros [H1 H2]; split;
    congruence || discriminate || assumption.
Qed.

Lemma keeps_false_spec (v : pyval) : keeps v = false <-> ~ present_nonblank v.
Proof.
  rewrite <- keeps_spec. destruct (keeps v); split; congruence.
Qed.

Lemma not_present_nonblank (v : pyval) :
  ~ present_nonblank v <->
  v = PyNone \/ exists s, v = PyStr s /\ PyStr.blank s = true.
Proof.
  unfold present_nonblank. destruct v as [|s]; simpl.
  - split; [auto | intros _ [H _]; now apply H].
  - split.
    + intros N. right. exists s. split; [reflexivity|].
      apply PyStrFacts.strip_empty.
      destruct (string_dec (PyStr.strip s) "") as [E|E]; [exact E|].
      exfalso. apply N. split; [discriminate | exact E].
    + intros [H|(s' & E & B)] [_ N]; [discriminate|].
      injection E as <-. apply PyStrFacts.strip_empty in B. contradiction.
Qed.

(** The loop appends, to what it was given, the conditions of the entries
    it keeps. *)
Lemma collect_conditions_acc (items : dict pyval) (acc : list condition) :
  collect_conditions items acc = (acc ++ collect_conditions items [])%list.
Proof.
  revert acc. induction items as [|[k v] rest IH]; intros acc; simpl.
  - now rewrite app_nil_r.
  - destruct (keeps v).
    + rewrite IH. rewrite (IH [[(k, v)]]). now rewrite <- app_assoc.
    + apply IH.
Qed.

Lemma collect_conditions_selects (items : dict pyval) :
  Selects items (collect_conditions items []).
Proof.
  induction items as [|[k v] rest IH]; simpl.
  - constructor.
  - destruct (keeps v) eqn:K.
    + rewrite collect_conditions_acc. simpl.
      apply Selects_keep; [now apply keeps_spec | exact IH].
    + apply Selects_drop; [now apply keeps_false_spec | exact IH].
Qed.

Lemma Selects_nonempty (items : dict pyval) (cs : list condition) :
  Selects items cs ->
  (exists k v, In (k, v) items /\ present_nonblank v) -> cs <> [].
Proof.
  induction 1 as [|k v rest cs P S IH|k v rest cs P S IH];
    intros (k' & v' & I & P').
  - destruct I.
  - discriminate.
  - destruct I as [E|I].
    + inversion E; subst. contradiction.
    + apply IH. eauto.
Qed.

Lemma Selects_all_dropped (items : dict pyval) (cs : list condition) :
  Selects items cs ->
  (forall k v, In (k, v) items -> ~ present_nonblank v) -> cs = [].
Proof.
  induction 1 as [|k v rest cs P S IH|k v rest cs P S IH]; intros A.
  - reflexivity.
  - exfalso. apply (A k v); [now left | exact P].
  - apply IH. intros k' v' I. apply (A k' v'). now right.
Qed.

(** The conditions of [Selects] are exactly the kept entries: membership. *)
Lemma Selects_In (items : dict pyval) (cs : list condition) :
  Selects items cs ->
  forall k v, In [(k, v)] cs <-> In (k, v) items /\ present_nonblank v.
Proof.
  induction 1 as [|k0 v0 rest cs P S IH|k0 v0 rest cs P S IH]; intros k v; simpl.
  - tauto.
  - rewrite IH. split.
    + intros [E|[I Q]]; [inversion E; subst; auto | auto].
    + intros [[E|I] Q]; [left; now inversion E | right; auto].
  - rewrite IH. split.
    + intros [I Q]; auto.
    + intros [[E|I] Q]; [inversion E; subst; contradiction | auto].
Qed.

Lemma build_where_some (items : dict pyval) :
  collect_conditions items [] <> [] ->
  build_where (Some items) = Some [("$and", collect_conditions items [])].
Proof.
  intros NE. unfold build_where.
  destruct items as [|kv rest]; [now elim NE|].
  cbn [truthy]. destruct (collect_conditions (kv :: rest) []); [now elim NE|].
  reflexivity.
Qed.

Lemma build_where_none (items : dict pyval) :
  collect_conditions items [] = [] -> build_where (Some items) = None.
Proof.
  intros E. unfold build_where.
  destruct items as [|kv rest]; [reflexivity|].
  cbn [truthy]. now rewrite E.
Qed.

(** ** One run of the orchestrator *)

Lemma get_embedding_run (env : Env) (text : string) (t : trace) :
  get_embedding env text t = (embed_result env text, (t ++ [ev_embed text])%list).
Proof.
  run_step.
  destruct (embeddings_create env [text] "text-embedding-3-small") as [[|d ds]|e];
    reflexivity.
Qed.

Lemma index_calls_app (t u : trace) :
  index_calls (t ++ u)%list = (index_calls t ++ index_calls u)%list.
Proof. apply filter_app. Qed.

Section Run.

Variables (env : Env) (q : string) (f : option (dict pyval)) (k : option Z).

(** The body of [try:], stage by stage. *)
Lemma search_permits_try_run (t : trace) :
  search_permits_try env q f k t =
  match embed_result env q with
  | Raise e => (Raise e, t ++ [ev_embed q])
  | Ok emb =>
      match collection_query env [emb] k (build_where f) include_fields with
      | Raise e => (Raise e, t ++ [ev_embed q; ev_query emb k f])
      | Ok r =>
          match first_row r with
          | None => (Raise (PyExc "IndexError" "list index out of range"),
                     t ++ [ev_embed q; ev_query emb k f])
          | Some (docs, metas, dists) =>
              (match logging_info env "Search Query Log: " (MkLogEntry q f r) with
               | Ok _ => Ok (map (shape env) (zip3 docs metas dists))
               | Raise e => Raise e
               end,
               t ++ [ev_embed q; ev_query emb k f; ev_log q f r])
          end
      end
  end%list.
Proof.
  run_step.
  destruct (embeddings_create env [q] "text-embedding-3-small") as [[|d ds]|e];
    try reflexivity.
  destruct (collection_query env [embedding d] k (build_where f) include_fields)
    as [r|e]; rewrite <- ?app_assoc; simpl; try reflexivity.
  destruct (documents r) as [|docs ?]; try reflexivity.
  destruct (metadatas r) as [|metas ?]; try reflexivity.
  destruct (distances r) as [|dists ?]; try reflexivity.
  run_step. rewrite <- ?app_assoc; simpl.
  destruct (logging_info env "Search Query Log: " (MkLogEntry q f r)); reflexivity.
Qed.

(** The [except] clause: whatever the body raises becomes a 500. *)
Lemma search_permits_catch (t : trace) :
  search_permits env q f k t =
  match search_permits_try env q f k t with
  | (Ok out, t') => (Ok out, t')
  | (Raise e, t') => (Raise (MkHTTPException 500 (str_exn e)), t')
  end.
Proof. reflexivity. Qed.

(** A run that returns went through every stage. *)
Lemma search_permits_ok_inv (t t' : trace)
    (out : list SearchResultItem) :
  search_permits env q f k t = (Ok out, t') ->
  exists emb r docs metas dists,
    embed_result env q = Ok emb /\
    collection_query env [emb] k (build_where f) include_fields = Ok r /\
    first_row r = Some (docs, metas, dists) /\
    logging_info env "Search Query Log: " (MkLogEntry q f r) = Ok tt /\
    out = map (shape env) (zip3 docs metas dists) /\
    t' = (t ++ [ev_embed q; ev_query emb k f; ev_log q f r])%list.
Proof.
  rewrite search_permits_catch, search_permits_try_run.
  destruct (embed_result env q) as [emb|e]; [|discriminate].
  destruct (collection_query env [emb] k (build_where f) include_fields)
    as [r|e] eqn:Q; [|discriminate].
  destruct (first_row r) as [[[docs metas] dists]|] eqn:R; [|discriminate].
  destruct (logging_info env "Search Query Log: " (MkLogEntry q f r))
    as [[]|e] eqn:L; [|discriminate].
  intros H. inversion H; subst.
  exists emb, r, docs, metas, dists. auto 10.
Qed.

(** The index is asked once, with the limit and the predicate built
    from the request. *)
Lemma search_permits_index_calls (t : trace) :
  index_calls (snd (search_permits env q f k t)) =
  match embed_result env q with
  | Ok emb => index_calls t ++ [EvQuery [emb] k (build_where f) include_fields]
  | Raise _ => index_calls t
  end%list.
Proof.
  rewrite search_permits_catch, search_permits_try_run.
  destruct (embed_result env q) as [emb|e].
  - destruct (collection_query env [emb] k (build_where f) include_fields)
      as [r|e].
    + destruct (first_row r) as [[[docs metas] dists]|].
      * destruct (logging_info env "Search Query Log: " (MkLogEntry q f r));
          simpl; now rewrite index_calls_app.
      * simpl. now rewrite index_calls_app.
    + simpl. now rewrite index_calls_app.
  - simpl. rewrite index_calls_app. simpl. now rewrite app_nil_r.
Qed.

(** The stages at which the body of [try:] can raise. *)
Lemma search_permits_try_raise_inv (t t' : trace) (e : exn) :
  search_permits_try env q f k t = (Raise e, t') ->
  embed_result env q = Raise e \/
  (exists emb, embed_result env q = Ok emb /\
     (collection_query env [emb] k (build_where f) include_fields = Raise e \/
      exists r, collection_query env [emb] k (build_where f) include_fields = Ok r /\
        (first_row r = None /\ e = PyExc "IndexError" "list index out of range" \/
         first_row r <> None /\
         logging_info env "Search Query Log: " (MkLogEntry q f r) = Raise e))).
Proof.
  rewrite search_permits_try_run.
  destruct (embed_result env q) as [emb|e0].
  - intros H. right. exists emb. split; [reflexivity|].
    destruct (collection_query env [emb] k (build_where f) include_fields)
      as [r|e1].
    + right. exists r. split; [reflexivity|].
      destruct (first_row r) as [[[docs metas] dists]|].
      * right. split; [discriminate|].
        destruct (logging_info env "Search Query Log: " (MkLogEntry q f r));
          [discriminate | congruence].
      * left. split; [reflexivity | congruence].
    + left. congruence.
  - intros H. left. congruence.
Qed.

(** Each stage's exception reaches the boundary unchanged. *)
Lemma stage_failures_reach_boundary (t : trace) :
  (forall e, embed_result env q = Raise e ->
     fst (search_permits_try env q f k t) = Raise e) /\
  (forall emb e, embed_result env q = Ok emb ->
     collection_query env [emb] k (build_where f) include_fields = Raise e ->
     fst (search_permits_try env q f k t) = Raise e) /\
  (forall emb r, embed_result env q = Ok emb ->
     collection_query env [emb] k (build_where f) include_fields = Ok r ->
     first_row r = None ->
     fst (search_permits_try env q f k t) =
     Raise (PyExc "IndexError" "list index out of range")) /\
  (forall emb r e, embed_result env q = Ok emb ->
     collection_query env [emb] k (build_where f) include_fields = Ok r ->
     first_row r <> None ->
     logging_info env "Search Query Log: " (MkLogEntry q f r) = Raise e ->
     fst (search_permits_try env q f k t) = Raise e).
Proof.
  rewrite search_permits_try_run. repeat split.
  - intros e E. now rewrite E.
  - intros emb e E Q. now rewrite E, Q.
  - intros emb r E Q R. now rewrite E, Q, R.
  - intros emb r e E Q R L. rewrite E, Q.
    destruct (first_row r) as [[[docs metas] dists]|]; [|now elim R].
    now rewrite L.
Qed.

End Run.

(** ** Shaping *)

Lemma zip3_length {A B C : Type} (a : list A) (b : list B) (c : list C) :
  length (zip3 a b c) = Nat.min (length a) (Nat.min (length b) (length c)).
Proof.
  revert b c. induction a as [|x a IH]; intros [|y b] [|z c]; simpl;
    try reflexivity.
  now rewrite IH.
Qed.

Lemma zip3_aligned {A B C : Type} (a : list A) (b : list B) (c : list C) :
  length a = length c -> length b = length c ->
  map (fun n => fst (fst n)) (zip3 a b c) = a /\
  map (fun n => snd (fst n)) (zip3 a b c) = b /\
  map snd (zip3 a b c) = c.
Proof.
  revert b c. induction a as [|x a IH]; intros [|y b] [|z c]; simpl;
    try discriminate; auto.
  intros Ha Hb. injection Ha as Ha. injection Hb as Hb.
  destruct (IH b c Ha Hb) as (E1 & E2 & E3).
  now rewrite E1, E2, E3.
Qed.

Lemma shape_fields (env : Env) (n : string * metadata * float) :
  document (shape env n) = fst (fst n) /\
  item_metadata (shape env n) = snd (fst n) /\
  similarity_score (shape env n) = round env (snd n) 4.
Proof. destruct n as [[doc meta] dist]. simpl. auto. Qed.

(** ** Claims about the filter builder *)

(** C1. When at least one entry of the filter mapping has a value that is
    present and not empty once trimmed, the predicate is the single
    document [{"$and": conds}], where [conds] holds exactly one condition
    [{key: value}] per such entry, with the value as it was given and in
    the order of the mapping; an entry whose value is [None], empty or
    only white space adds no condition, and building never fails. *)
Theorem filter_predicate_is_conjunction (items : dict pyval) :
  (exists k v, In (k, v) items /\ present_nonblank v) ->
  exists conds,
    build_where (Some items) = Some [("$and", conds)] /\
    Selects items conds /\
    (forall k v, In [(k, v)] conds <-> In (k, v) items /\ present_nonblank v) /\
    (forall k v, v = PyNone \/ (exists s, v = PyStr s /\ PyStr.blank s = true) ->
                 ~ In [(k, v)] conds).
Proof.
  intros Hex.
  pose proof (collect_conditions_selects items) as S.
  exists (collect_conditions items []).
  split; [|split; [|split]].
  - apply build_where_some. now apply (Selects_nonempty items).
  - exact S.
  - now apply Selects_In.
  - intros k v B I. apply (Selects_In _ _ S) in I as [_ P].
    now apply not_present_nonblank in B.
Qed.

Lemma filter_predicate_is_conjunction_witness :
  exists conds,
    build_where (Some Sample.filters_austin) = Some [("$and", conds)] /\
    Selects Sample.filters_austin conds /\
    (forall k v, In [(k, v)] conds <->
                 In (k, v) Sample.filters_austin /\ present_nonblank v) /\
    (forall k v, v = PyNone \/ (exists s, v = PyStr s /\ PyStr.blank s = true) ->
                 ~ In [(k, v)] conds).
Proof.
  apply (filter_predicate_is_conjunction Sample.filters_austin).
  exists "city", (PyStr "Austin"). split.
  - simpl. auto.
  - split; [discriminate | vm_compute; discriminate].
Defined.

(** C5. When the filter mapping is absent, empty, or holds only values
    that are [None], empty or white space, no predicate is built, and the
    index is queried with [where=None]. *)
Theorem blank_filters_match_all (f : option (dict pyval)) :
  (forall items, f = Some items ->
     forall k v, In (k, v) items -> ~ present_nonblank v) ->
  build_where f = None /\
  forall env q k t emb,
    embed_result env q = Ok emb ->
    index_calls (snd (search_permits env q f k t)) =
    (index_calls t ++ [EvQuery [emb] k None include_fields])%list.
Proof.
  intros Hblank.
  assert (B : build_where f = None).
  { destruct f as [items|]; [|reflexivity].
    apply build_where_none.
    apply (Selects_all_dropped items); [apply collect_conditions_selects|].
    now apply Hblank. }
  split; [exact B|].
  intros env q k t emb E.
  rewrite search_permits_index_calls, E, B. reflexivity.
Qed.

Lemma blank_filters_match_all_witness :
  build_where (Some Sample.filters_blank) = None /\
  forall env q k t emb,
    embed_result env q = Ok emb ->
    index_calls (snd (search_permits env q (Some Sample.filters_blank) k t)) =
    (index_calls t ++ [EvQuery [emb] k None include_fields])%list.
Proof.
  apply (blank_filters_match_all (Some Sample.filters_blank)).
  intros items E k v I. injection E as <-.
  apply not_present_nonblank.
  simpl in I. destruct I as [I|[I|[I|[]]]]; injection I as <- <-.
  - right. exists "". now split.
  - right. exists "   ". now split.
  - now left.
Defined.

(** ** The route around the orchestrator *)

Lemma post_search_valid (env : Env) (body : json) (req : SearchRequest)
    (t : trace) :
  validate body = Ok req ->
  post_search env body t =
  match search_permits env (query req) (filters req) (top_k req) t with
  | (Ok out, t') => (MkResponse 200 (CResults [("results", out)]), t')
  | (Raise h, t') =>
      (MkResponse (status_code h) (CDetail [("detail", detail h)]), t')
  end.
Proof.
  intros V. unfold post_search. rewrite V.
  unfold respond, search_vector, bind, ret.
  destruct (search_permits env (query req) (filters req) (top_k req) t)
    as [[out|h] t']; reflexivity.
Qed.

Lemma post_search_invalid (env : Env) (body : json)
    (errs : list field_error) (t : trace) :
  validate body = Raise errs ->
  post_search env body t = (MkResponse 422 (CValidation [("detail", errs)]), t).
Proof. intros V. unfold post_search. now rewrite V. Qed.

(** ** Claims about failures *)

(** C2. Whatever exception the body of the search raises -- while
    embedding the query, querying the index, reading the index's answer or
    logging -- it is caught at the boundary and raised again as one
    [HTTPException] with status 500 whose detail is the text of that
    exception; the route answers 500 with [{"detail": text}], the answer
    depends on nothing but the text, and no result list is returned. *)
Theorem failure_surfaces_as_http_500 (env : Env) (body : json)
    (req : SearchRequest) (t t' : trace) (e : exn) :
  validate body = Ok req ->
  search_permits_try env (query req) (filters req) (top_k req) t = (Raise e, t') ->
  search_permits env (query req) (filters req) (top_k req) t =
    (Raise (MkHTTPException 500 (str_exn e)), t') /\
  post_search env body t =
    (MkResponse 500 (CDetail [("detail", str_exn e)]), t') /\
  (forall out,
     fst (search_permits env (query req) (filters req) (top_k req) t) <> Ok out).
Proof.
  intros V R.
  assert (S : search_permits env (query req) (filters req) (top_k req) t =
              (Raise (MkHTTPException 500 (str_exn e)), t')).
  { rewrite search_permits_catch, R. reflexivity. }
  split; [exact S|]. split.
  - rewrite (post_search_valid env body req t V), S. reflexivity.
  - intros out. rewrite S. discriminate.
Qed.

Lemma failure_surfaces_as_http_500_witness :
  search_permits Sample.env_embedding_down "plumbing" None (Some 5) [] =
    (Raise (MkHTTPException 500 "Connection error."), [ev_embed "plumbing"]) /\
  post_search Sample.env_embedding_down
              (JObject [("query", JString "plumbing")]) [] =
    (MkResponse 500 (CDetail [("detail", "Connection error.")]),
     [ev_embed "plumbing"]) /\
  (forall out,
     fst (search_permits Sample.env_embedding_down "plumbing" None (Some 5) [])
     <> Ok out).
Proof.
  apply (failure_surfaces_as_http_500 Sample.env_embedding_down
           (JObject [("query", JString "plumbing")])
           (MkSearchRequest "plumbing" None (Some 5)) [] [ev_embed "plumbing"]
           (PyExc "APIConnectionError" "Connection error."));
    reflexivity.
Defined.

(** An embedding failure and an index failure with the same text give the
    same answer. *)
Lemma failures_not_distinguished :
  fst (post_search Sample.env_embedding_down
                   (JObject [("query", JString "plumbing")]) []) =
  fst (post_search Sample.env_index_down
                   (JObject [("query", JString "plumbing")]) []).
Proof. reflexivity. Qed.

(** ** Claims about logging *)

(** With the embedding, the index query and the reading of its answer
    succeeding, the log entry (query, filters, raw answer) is handed to
    the logger after shaping, and the outcome follows the logging call:
    the ordered result list when it returns, the 500 of every other
    failure should it raise. *)
Lemma logging_call_decides_outcome (env : Env) (q : string)
    (f : option (dict pyval)) (k : option Z) (t : trace)
    (emb : list float) (r : QueryResult)
    (docs : list string) (metas : list metadata) (dists : list float) :
  embed_result env q = Ok emb ->
  collection_query env [emb] k (build_where f) include_fields = Ok r ->
  first_row r = Some (docs, metas, dists) ->
  snd (search_permits env q f k t) =
    (t ++ [ev_embed q; ev_query emb k f; ev_log q f r])%list /\
  (logging_info env "Search Query Log: " (MkLogEntry q f r) = Ok tt ->
   fst (search_permits env q f k t) =
     Ok (map (shape env) (zip3 docs metas dists))) /\
  (forall e,
     logging_info env "Search Query Log: " (MkLogEntry q f r) = Raise e ->
     fst (search_permits env q f k t) =
       Raise (MkHTTPException 500 (str_exn e))).
Proof.
  intros E Q R.
  rewrite search_permits_catch, search_permits_try_run, E, Q, R.
  destruct (logging_info env "Search Query Log: " (MkLogEntry q f r))
    as [[]|e0]; simpl; repeat split; try discriminate.
  intros e H. now injection H as <-.
Qed.

(** The handler returns whatever the sink does. *)
Lemma handler_emit_returns
    (stream_write : string -> log_entry -> result exn unit)
    (prefix : string) (entry : log_entry) :
  handler_emit stream_write prefix entry = Ok tt.
Proof. unfold handler_emit. now destruct (stream_write prefix entry). Qed.



(** ** Claims about the shape of a successful answer *)

Lemma map_shape_aligned (env : Env) (docs : list string)
    (metas : list metadata) (dists : list float) :
  length docs = length dists -> length metas = length dists ->
  map document (map (shape env) (zip3 docs metas dists)) = docs /\
  map item_metadata (map (shape env) (zip3 docs metas dists)) = metas /\
  map similarity_score (map (shape env) (zip3 docs metas dists)) =
    map (fun d => round env d 4) dists.
Proof.
  intros Hd Hm.
  destruct (zip3_aligned docs metas dists Hd Hm) as (E1 & E2 & E3).
  rewrite !map_map. repeat split.
  - rewrite <- E1 at 2. apply map_ext. intros n. apply shape_fields.
  - rewrite <- E2 at 2. apply map_ext. intros n. apply shape_fields.
  - rewrite <- E3 at 2. rewrite map_map. apply map_ext. intros n.
    apply shape_fields.
Qed.

Lemma Forall2_map_shape (env : Env) (ns : list (string * metadata * float)) :
  Forall2 (fun item n =>
             document item = fst (fst n) /\
             item_metadata item = snd (fst n) /\
             similarity_score item = round env (snd n) 4)
          (map (shape env) ns) ns.
Proof.
  induction ns as [|n ns IH]; simpl; constructor.
  - apply shape_fields.
  - exact IH.
Qed.

(** C4. A search that succeeds returns one item per neighbour of the
    index's answer, in the order of that answer, and, the index keeping to
    the limit it was given, at most [top_k] of them. *)
Theorem results_follow_index_answer (env : Env) (q : string)
    (f : option (dict pyval)) (n : Z) (t t' : trace)
    (out : list SearchResultItem) :
  index_contract env ->
  search_permits env q f (Some n) t = (Ok out, t') ->
  exists emb r docs metas dists,
    collection_query env [emb] (Some n) (build_where f) include_fields = Ok r /\
    first_row r = Some (docs, metas, dists) /\
    Z.of_nat (length out) <= n /\
    length out = length docs /\
    map document out = docs /\
    map item_metadata out = metas /\
    map similarity_score out = map (fun d => round env d 4) dists.
Proof.
  intros C S.
  apply search_permits_ok_inv in S
    as (emb & r & docs & metas & dists & E & Q & R & L & -> & ->).
  destruct (C _ _ _ _ _ _ _ _ Q R) as (Hd & Hm & Hn).
  destruct (map_shape_aligned env docs metas dists Hd Hm) as (E1 & E2 & E3).
  exists emb, r, docs, metas, dists.
  assert (Len : length (map (shape env) (zip3 docs metas dists)) = length docs).
  { rewrite <- E1 at 2. now rewrite !length_map. }
  repeat split; try assumption.
  rewrite Len, Hd. exact Hn.
Qed.

Lemma sample_index_contract : index_contract Sample.env.
Proof.
  intros embs n w inc r docs metas dists Q R.
  simpl in Q. unfold Sample.index in Q.
  destruct (n <=? 0) eqn:N; [discriminate|].
  apply Z.leb_gt in N.
  injection Q as <-. injection R as <- <- <-.
  rewrite !length_firstn. simpl.
  repeat split; lia.
Qed.

Lemma results_follow_index_answer_witness :
  exists emb r docs metas dists,
    collection_query Sample.env [emb] (Some 2) (build_where None)
                     include_fields = Ok r /\
    first_row r = Some (docs, metas, dists) /\
    Z.of_nat (length [MkItem "Electrical permit 101" [("city", "Austin")]
                             Sample.eighth;
                      MkItem "Plumbing permit 202" [("city", "Austin")]
                             Sample.quarter]) <= 2 /\
    length [MkItem "Electrical permit 101" [("city", "Austin")] Sample.eighth;
            MkItem "Plumbing permit 202" [("city", "Austin")] Sample.quarter] =
      length docs /\
    map document
        [MkItem "Electrical permit 101" [("city", "Austin")] Sample.eighth;
         MkItem "Plumbing permit 202" [("city", "Austin")] Sample.quarter] =
      docs /\
    map item_metadata
        [MkItem "Electrical permit 101" [("city", "Austin")] Sample.eighth;
         MkItem "Plumbing permit 202" [("city", "Austin")] Sample.quarter] =
      metas /\
    map similarity_score
        [MkItem "Electrical permit 101" [("city", "Austin")] Sample.eighth;
         MkItem "Plumbing permit 202" [("city", "Austin")] Sample.quarter] =
      map (fun d => round Sample.env d 4) dists.
Proof.
  apply (results_follow_index_answer Sample.env "plumbing" None 2 []
           (snd (search_permits Sample.env "plumbing" None (Some 2) []))).
  - exact sample_index_contract.
  - reflexivity.
Defined.

(** C6. In a search that succeeds, the item at each position carries the
    document and the metadata of the neighbour at that position and, as
    its similarity score, [round(distance, 4)] of that neighbour's
    distance: nothing is reordered, rescaled or inverted. *)
Theorem similarity_score_is_rounded_distance (env : Env) (q : string)
    (f : option (dict pyval)) (k : option Z) (t t' : trace)
    (out : list SearchResultItem) :
  search_permits env q f k t = (Ok out, t') ->
  exists emb r docs metas dists,
    collection_query env [emb] k (build_where f) include_fields = Ok r /\
    first_row r = Some (docs, metas, dists) /\
    Forall2 (fun item n =>
               document item = fst (fst n) /\
               item_metadata item = snd (fst n) /\
               similarity_score item = round env (snd n) 4)
            out (zip3 docs metas dists).
Proof.
  intros S.
  apply search_permits_ok_inv in S
    as (emb & r & docs & metas & dists & E & Q & R & L & -> & ->).
  exists emb, r, docs, metas, dists.
  repeat split; try assumption.
  apply Forall2_map_shape.
Qed.

Lemma similarity_score_is_rounded_distance_witness :
  exists emb r docs metas dists,
    collection_query Sample.env [emb] (Some 3) (build_where None)
                     include_fields = Ok r /\
    first_row r = Some (docs, metas, dists) /\
    Forall2 (fun item n =>
               document item = fst (fst n) /\
               item_metadata item = snd (fst n) /\
               similarity_score item = round Sample.env (snd n) 4)
            [MkItem "Electrical permit 101" [("city", "Austin")] Sample.eighth;
             MkItem "Plumbing permit 202" [("city", "Austin")] Sample.quarter;
             MkItem "Roofing permit 303" [("city", "Dallas")] Sample.half]
            (zip3 docs metas dists).
Proof.
  apply (similarity_score_is_rounded_distance Sample.env "permit"
           None (Some 3) []
           (snd (search_permits Sample.env "permit" None (Some 3) []))).
  reflexivity.
Defined.

(** ** Schema validation *)

Lemma validate_str_values_ok (ms : dict json) :
  (exists d, validate_str_values ms = Some d) <->
  Forall (fun kv => exists s, snd kv = JString s) ms.
Proof.
  induction ms as [|[k v] ms IH]; simpl.
  - split; [constructor | now exists []].
  - split.
    + intros [d H]. destruct v; try discriminate.
      constructor; [now exists s|].
      apply IH. destruct (validate_str_values ms) as [d'|]; [|discriminate].
      now exists d'.
    + intros H. inversion H as [|x l [s Hs] Hl]; subst. simpl in Hs. subst v.
      apply IH in Hl as [d' E]. rewrite E. now exists ((k, PyStr s) :: d').
Qed.

Lemma validate_query_ok (m : dict json) :
  (exists q, validate_query m = Ok q) <->
  exists s, dict_get "query" m = Some (JString s).
Proof.
  unfold validate_query.
  destruct (dict_get "query" m) as [[]|]; split; intros [x H];
    try discriminate; eauto.
Qed.

Lemma validate_filters_ok (m : dict json) :
  (exists f, validate_filters m = Ok f) <->
  (dict_get "filters" m = None \/
   dict_get "filters" m = Some JNull \/
   exists ms, dict_get "filters" m = Some (JObject ms) /\
              Forall (fun kv => exists s, snd kv = JString s) ms).
Proof.
  unfold validate_filters.
  destruct (dict_get "filters" m) as [v|]; [|split; eauto].
  destruct v; split;
    try (intros [x H]; discriminate);
    try (intros [H|[H|(ms & H & _)]]; discriminate);
    eauto.
  - intros [f H]. right. right. exists members. split; [reflexivity|].
    apply validate_str_values_ok.
    destruct (validate_str_values members) as [d|]; [eauto | discriminate].
  - intros [H|[H|(ms & H & F)]]; try discriminate.
    injection H as <-. apply validate_str_values_ok in F as [d E].
    rewrite E. eauto.
Qed.

Lemma validate_top_k_ok (m : dict json) :
  (exists k, validate_top_k m = Ok k) <->
  (dict_get "top_k" m = None \/
   dict_get "top_k" m = Some JNull \/
   exists z, dict_get "top_k" m = Some (JInt z)).
Proof.
  unfold validate_top_k.
  destruct (dict_get "top_k" m) as [v|]; [|split; eauto].
  destruct v; split;
    try (intros [x H]; discriminate);
    try (intros [H|[H|(z' & H)]]; discriminate);
    eauto 6.
Qed.

Lemma validate_object (m : dict json) :
  validate (JObject m) =
  match validate_query m, validate_filters m, validate_top_k m with
  | Ok q, Ok f, Ok k => Ok (MkSearchRequest q f k)
  | rq, rf, rk => Raise (errors_of rq ++ errors_of rf ++ errors_of rk)%list
  end.
Proof. reflexivity. Qed.

Lemma validate_accepts_iff (body : json) :
  (exists req, validate body = Ok req) <-> conforms body.
Proof.
  unfold conforms. split.
  - intros [req V]. destruct body; try discriminate.
    exists members. split; [reflexivity|].
    rewrite validate_object in V.
    rewrite <- validate_query_ok, <- validate_filters_ok, <- validate_top_k_ok.
    destruct (validate_query members) as [q|]; [|
      destruct (validate_filters members); destruct (validate_top_k members);
      discriminate].
    destruct (validate_filters members) as [f|]; [|
      destruct (validate_top_k members); discriminate].
    destruct (validate_top_k members) as [k|]; [|discriminate].
    repeat split; eauto.
  - intros (m & -> & Hq & Hf & Hk).
    apply validate_query_ok in Hq as [q Eq].
    apply validate_filters_ok in Hf as [f Ef].
    apply validate_top_k_ok in Hk as [k Ek].
    rewrite validate_object, Eq, Ef, Ek. eauto.
Qed.

Lemma validate_errors_nonempty (body : json) (errs : list field_error) :
  validate body = Raise errs -> errs <> [].
Proof.
  destruct body; simpl; try (intros H; injection H as <-; discriminate).
  destruct (validate_query members) as [q|e1];
    destruct (validate_filters members) as [f|e2];
    destruct (validate_top_k members) as [k|e3];
    intros H; try discriminate; injection H as <-; discriminate.
Qed.

Lemma post_search_trace (env : Env) (body : json) (req : SearchRequest)
    (t : trace) :
  validate body = Ok req ->
  snd (post_search env body t) =
  snd (search_permits env (query req) (filters req) (top_k req) t).
Proof.
  intros V. rewrite (post_search_valid env body req t V).
  destruct (search_permits env (query req) (filters req) (top_k req) t)
    as [[out|h] t']; reflexivity.
Qed.

(** ** Claims about the HTTP layer *)

(** C7, as the specification states it, fails: the schema asks neither for
    a non-empty query nor for a positive [top_k].  A body with an empty
    query is valid and is searched; bodies with [top_k] 0 and -3 are valid
    and reach the index with that limit. *)
Lemma schema_accepts_empty_query_and_nonpositive_top_k :
  validate (JObject [("query", JString "")]) =
    Ok (MkSearchRequest "" None (Some 5)) /\
  post_search Sample.env (JObject [("query", JString "")]) [] =
    (MkResponse 200
       (CResults [("results",
          [MkItem "Electrical permit 101" [("city", "Austin")] Sample.eighth;
           MkItem "Plumbing permit 202" [("city", "Austin")] Sample.quarter;
           MkItem "Roofing permit 303" [("city", "Dallas")] Sample.half])]),
     [ev_embed "";
      ev_query [Sample.half; Sample.quarter] (Some 5) None;
      ev_log "" None
        (MkQueryResult [Sample.stored_documents] [Sample.stored_metadatas]
                       [Sample.stored_distances])]) /\
  validate (JObject [("query", JString "permit"); ("top_k", JInt 0)]) =
    Ok (MkSearchRequest "permit" None (Some 0)) /\
  index_calls (snd (post_search Sample.env
      (JObject [("query", JString "permit"); ("top_k", JInt 0)]) [])) =
    [EvQuery [[Sample.half; Sample.quarter]] (Some 0) None include_fields] /\
  validate (JObject [("query", JString "permit"); ("top_k", JInt (-3))]) =
    Ok (MkSearchRequest "permit" None (Some (-3))) /\
  index_calls (snd (post_search Sample.env
      (JObject [("query", JString "permit"); ("top_k", JInt (-3))]) [])) =
    [EvQuery [[Sample.half; Sample.quarter]] (Some (-3)) None include_fields].
Proof. repeat split. Qed.

Lemma validate_str_values_rejects (ms : dict json) (k : string) (v : json) :
  In (k, v) ms -> not_text_like v -> validate_str_values ms = None.
Proof.
  induction ms as [|[k0 v0] ms IH]; intros I N; [destruct I|].
  destruct I as [E|I].
  - injection E as -> ->. destruct v; simpl in N; try contradiction;
      reflexivity.
  - simpl. destruct v0; try reflexivity. now rewrite (IH I N).
Qed.

Lemma validate_rejects_field (m : dict json) :
  (exists e, validate_query m = Raise e) \/
  (exists e, validate_filters m = Raise e) \/
  (exists e, validate_top_k m = Raise e) ->
  exists errs, validate (JObject m) = Raise errs.
Proof.
  rewrite validate_object.
  intros [[e H]|[[e H]|[e H]]]; rewrite H;
    destruct (validate_query m); destruct (validate_filters m);
    destruct (validate_top_k m); try discriminate; eauto.
Qed.

Lemma malformed_is_rejected (body : json) :
  malformed body -> exists errs, validate body = Raise errs.
Proof.
  destruct body as [|b|z|x|s|l|m]; simpl;
    [intros _; eauto .. | intros [] | ].
  intros [Q|[(v & Q & N)|[(v & K & N)|[(v & F & N)|(ms & k & v & F & I & N)]]]];
    apply validate_rejects_field.
  - left. unfold validate_query. rewrite Q. eauto.
  - left. unfold validate_query. rewrite Q.
    destruct v; simpl in N; try contradiction; eauto.
  - right. right. unfold validate_top_k. rewrite K.
    destruct v; simpl in N; try contradiction; eauto.
  - right. left. unfold validate_filters. rewrite F.
    destruct v; simpl in N; try contradiction; eauto.
  - right. left. unfold validate_filters. rewrite F.
    rewrite (validate_str_values_rejects ms k v I N). eauto.
Qed.

(** C7, amended. Validation enforces the declared types, not the
    non-empty query or the positive [top_k]: a body that is an object
    whose [query] is text (empty or not), whose [filters] is missing, null
    or a mapping from text to text, and whose [top_k] is missing, null or
    an integer of any sign is accepted and handed to the search; a body
    that no conversion can bring to that shape -- a scalar or null, or an
    object whose [query] is missing, null, an array or an object, whose
    [top_k] is an array or an object, whose [filters] is a number or a
    boolean or holds a null, array or object value -- is answered 422 with
    a non-empty list of field errors, and no call leaves the service. *)
Theorem schema_validation_enforces_declared_types (body : json) :
  (conforms body ->
   exists req,
     validate body = Ok req /\
     forall env t,
       post_search env body t = respond (search_vector env req) t) /\
  (malformed body ->
   exists errs,
     validate body = Raise errs /\ errs <> [] /\
     forall env t,
       post_search env body t =
       (MkResponse 422 (CValidation [("detail", errs)]), t)).
Proof.
  split.
  - intros C. apply validate_accepts_iff in C as [req V].
    exists req. split; [exact V|].
    intros env t. unfold post_search. now rewrite V.
  - intros B. apply malformed_is_rejected in B as [errs V].
    exists errs. split; [exact V|]. split.
    + now apply (validate_errors_nonempty body).
    + intros env t. now apply post_search_invalid.
Qed.

Lemma schema_validation_enforces_declared_types_witness :
  (exists req,
     validate (JObject [("query", JString ""); ("top_k", JInt (-3))]) = Ok req /\
     forall env t,
       post_search env (JObject [("query", JString ""); ("top_k", JInt (-3))]) t =
       respond (search_vector env req) t) /\
  (exists errs,
     validate (JObject [("query", JNull); ("top_k", JInt 3)]) = Raise errs /\
     errs <> [] /\
     forall env t,
       post_search env (JObject [("query", JNull); ("top_k", JInt 3)]) t =
       (MkResponse 422 (CValidation [("detail", errs)]), t)).
Proof.
  split.
  - apply (proj1 (schema_validation_enforces_declared_types
                    (JObject [("query", JString ""); ("top_k", JInt (-3))]))).
    exists [("query", JString ""); ("top_k", JInt (-3))].
    split; [reflexivity|]. split; [now exists ""|].
    split; [now left | right; right; now exists (-3)].
  - apply (proj2 (schema_validation_enforces_declared_types
                    (JObject [("query", JNull); ("top_k", JInt 3)]))).
    right. left. exists JNull. split; [reflexivity | exact I].
Defined.

(** C8. [GET /healthz] answers 200 with [{"ok": true}] whatever the
    embedding provider and the index do, and calls neither. *)
Theorem healthz_is_static (env : Env) (body : json) (t : trace) :
  app env GET "/healthz" body t = (MkResponse 200 (CHealth [("ok", true)]), t) /\
  health_check = CHealth [("ok", true)].
Proof. split; reflexivity. Qed.

(** C9. A valid [POST /search] body without [top_k] is searched with
    [top_k = 5]: that is the limit the index is given. *)
Theorem omitted_top_k_defaults_to_5 (env : Env) (members : dict json)
    (req : SearchRequest) (t : trace) :
  validate (JObject members) = Ok req ->
  dict_get "top_k" members = None ->
  top_k req = Some 5 /\
  app env POST "/search" (JObject members) t =
    respond (search_vector env
               (MkSearchRequest (query req) (filters req) (Some 5))) t /\
  forall emb,
    embed_result env (query req) = Ok emb ->
    index_calls (snd (app env POST "/search" (JObject members) t)) =
    (index_calls t ++
     [EvQuery [emb] (Some 5) (build_where (filters req)) include_fields])%list.
Proof.
  intros V K.
  assert (T : top_k req = Some 5).
  { rewrite validate_object in V. unfold validate_top_k in V. rewrite K in V.
    destruct (validate_query members); destruct (validate_filters members);
      try discriminate.
    now injection V as <-. }
  split; [exact T|].
  change (app env POST "/search" (JObject members) t)
    with (post_search env (JObject members) t).
  split.
  - unfold post_search. rewrite V. destruct req as [q f k]. simpl in *.
    now subst k.
  - intros emb E.
    rewrite (post_search_trace env _ req t V), search_permits_index_calls, E, T.
    reflexivity.
Qed.

Lemma omitted_top_k_defaults_to_5_witness :
  top_k (MkSearchRequest "plumbing" None (Some 5)) = Some 5 /\
  app Sample.env POST "/search" (JObject [("query", JString "plumbing")]) [] =
    respond (search_vector Sample.env
               (MkSearchRequest "plumbing" None (Some 5))) [] /\
  forall emb,
    embed_result Sample.env "plumbing" = Ok emb ->
    index_calls (snd (app Sample.env POST "/search"
                        (JObject [("query", JString "plumbing")]) [])) =
    (index_calls [] ++
     [EvQuery [emb] (Some 5) (build_where None) include_fields])%list.
Proof.
  apply (omitted_top_k_defaults_to_5 Sample.env
           [("query", JString "plumbing")]
           (MkSearchRequest "plumbing" None (Some 5)) []);
    reflexivity.
Defined.

(** C10. The service never checks [top_k]: whatever integer the body
    carries -- zero and negative ones included -- validation accepts it
    and the index is queried with exactly that integer as [n_results]. *)
Theorem top_k_is_passed_unchecked (env : Env) (members : dict json)
    (q : string) (f : option (dict pyval)) (z : Z) (t : trace) :
  validate_query members = Ok q ->
  validate_filters members = Ok f ->
  dict_get "top_k" members = Some (JInt z) ->
  validate (JObject members) = Ok (MkSearchRequest q f (Some z)) /\
  forall emb,
    embed_result env q = Ok emb ->
    index_calls (snd (search_permits env q f (Some z) t)) =
      (index_calls t ++
       [EvQuery [emb] (Some z) (build_where f) include_fields])%list /\
    index_calls (snd (app env POST "/search" (JObject members) t)) =
      (index_calls t ++
       [EvQuery [emb] (Some z) (build_where f) include_fields])%list.
Proof.
  intros Vq Vf K.
  assert (V : validate (JObject members) = Ok (MkSearchRequest q f (Some z))).
  { rewrite validate_object, Vq, Vf. unfold validate_top_k. now rewrite K. }
  split; [exact V|].
  intros emb E.
  change (app env POST "/search" (JObject members) t)
    with (post_search env (JObject members) t).
  rewrite (post_search_trace env _ _ t V). simpl.
  rewrite search_permits_index_calls, E. split; reflexivity.
Qed.

Lemma top_k_is_passed_unchecked_witness :
  validate (JObject [("query", JString "permit"); ("top_k", JInt (-3))]) =
    Ok (MkSearchRequest "permit" None (Some (-3))) /\
  forall emb,
    embed_result Sample.env "permit" = Ok emb ->
    index_calls (snd (search_permits Sample.env "permit" None (Some (-3)) [])) =
      (index_calls [] ++
       [EvQuery [emb] (Some (-3)) (build_where None) include_fields])%list /\
    index_calls (snd (app Sample.env POST "/search"
        (JObject [("query", JString "permit"); ("top_k", JInt (-3))]) [])) =
      (index_calls [] ++
       [EvQuery [emb] (Some (-3)) (build_where None) include_fields])%list.
Proof.
  apply (top_k_is_passed_unchecked Sample.env
           [("query", JString "permit"); ("top_k", JInt (-3))]
           "permit" None (-3) []);
    reflexivity.
Defined.

(** * Further properties of the code *)

(** ** Embedding client *)

(** X1. [get_embedding] asks the provider once, for the one text it was
    given and the model text-embedding-3-small; it returns the embedding
    of the first datum whatever follows it, raises IndexError when the
    provider returns no datum, and lets a provider exception through. *)
Theorem get_embedding_uses_first_datum (env : Env) (text : string) (t : trace) :
  snd (get_embedding env text t) =
    (t ++ [EvEmbeddingsCreate [text] "text-embedding-3-small"])%list /\
  (forall d ds,
     embeddings_create env [text] "text-embedding-3-small" = Ok (d :: ds) ->
     fst (get_embedding env text t) = Ok (embedding d)) /\
  (embeddings_create env [text] "text-embedding-3-small" = Ok [] ->
   fst (get_embedding env text t) =
     Raise (PyExc "IndexError" "list index out of range")) /\
  (forall e,
     embeddings_create env [text] "text-embedding-3-small" = Raise e ->
     fst (get_embedding env text t) = Raise e).
Proof.
  rewrite get_embedding_run. unfold embed_result, ev_embed. simpl.
  split; [reflexivity|].
  split; [|split].
  - intros d ds E. now rewrite E.
  - intros E. now rewrite E.
  - intros e E. now rewrite E.
Qed.

(** ** The calls of one search *)

Lemma log_calls_app (t u : trace) :
  log_calls (t ++ u)%list = (log_calls t ++ log_calls u)%list.
Proof. apply filter_app. Qed.

(** X2. One search calls the embedding provider once, then the index at
    most once, then the logger at most once, in that order and without
    retrying; a call is made only when every earlier stage succeeded, and
    the entry logged holds the request's query and filters and the raw
    answer of the index. *)
Theorem search_call_protocol (env : Env) (q : string)
    (f : option (dict pyval)) (k : option Z) (t : trace) :
  exists u,
    snd (search_permits env q f k t) = (t ++ u)%list /\
    ((u = [ev_embed q] /\ exists e, embed_result env q = Raise e) \/
     (exists emb,
        u = [ev_embed q; ev_query emb k f] /\
        embed_result env q = Ok emb /\
        ((exists e, collection_query env [emb] k (build_where f)
                                     include_fields = Raise e) \/
         (exists r, collection_query env [emb] k (build_where f)
                                     include_fields = Ok r /\
                    first_row r = None))) \/
     (exists emb r,
        u = [ev_embed q; ev_query emb k f; ev_log q f r] /\
        embed_result env q = Ok emb /\
        collection_query env [emb] k (build_where f) include_fields = Ok r /\
        first_row r <> None)).
Proof.
  rewrite search_permits_catch, search_permits_try_run.
  destruct (embed_result env q) as [emb|e].
  - destruct (collection_query env [emb] k (build_where f) include_fields)
      as [r|e] eqn:Q.
    + destruct (first_row r) as [[[docs metas] dists]|] eqn:R.
      * exists [ev_embed q; ev_query emb k f; ev_log q f r]. split.
        -- destruct (logging_info env "Search Query Log: " (MkLogEntry q f r));
             reflexivity.
        -- right. right. exists emb, r. repeat split; congruence.
      * exists [ev_embed q; ev_query emb k f]. split; [reflexivity|].
        right. left. exists emb. repeat split. right. now exists r.
    + exists [ev_embed q; ev_query emb k f]. split; [reflexivity|].
      right. left. exists emb. repeat split. left. now exists e.
  - exists [ev_embed q]. split; [reflexivity|]. left. split; eauto.
Qed.

(** X3. A search that fails before the logging call -- the embedding
    fails, the index fails or its answer has no row -- writes no log
    entry, and it is answered by an error. *)
Theorem early_failure_is_not_logged (env : Env) (q : string)
    (f : option (dict pyval)) (k : option Z) (t : trace) :
  ((exists e, embed_result env q = Raise e) \/
   (exists emb, embed_result env q = Ok emb /\
      ((exists e, collection_query env [emb] k (build_where f)
                                   include_fields = Raise e) \/
       (exists r, collection_query env [emb] k (build_where f)
                                   include_fields = Ok r /\
                  first_row r = None)))) ->
  log_calls (snd (search_permits env q f k t)) = log_calls t /\
  exists h, fst (search_permits env q f k t) = Raise h /\ status_code h = 500.
Proof.
  rewrite search_permits_catch, search_permits_try_run.
  intros [[e E]|(emb & E & [[e Q]|(r & Q & R)])]; rewrite E; try rewrite Q;
    try rewrite R; simpl; rewrite log_calls_app; simpl;
    rewrite app_nil_r; split; eauto.
Qed.

Lemma early_failure_is_not_logged_witness :
  log_calls (snd (search_permits Sample.env_index_down "plumbing" None
                    (Some 5) [])) = log_calls [] /\
  exists h,
    fst (search_permits Sample.env_index_down "plumbing" None (Some 5) []) =
      Raise h /\ status_code h = 500.
Proof.
  apply (early_failure_is_not_logged Sample.env_index_down "plumbing" None
           (Some 5) []).
  right. exists [Sample.half; Sample.quarter]. split; [reflexivity|].
  left. exists (PyExc "InternalError" "Connection error."). reflexivity.
Defined.

(** X4. A search that returns a result list has written exactly one log
    entry, after the index answered and before returning: the entry holds
    the query and the filters as they were received and the raw answer the
    items were shaped from. *)
Theorem successful_search_is_logged (env : Env) (q : string)
    (f : option (dict pyval)) (k : option Z) (t t' : trace)
    (out : list SearchResultItem) :
  search_permits env q f k t = (Ok out, t') ->
  exists emb r docs metas dists,
    collection_query env [emb] k (build_where f) include_fields = Ok r /\
    first_row r = Some (docs, metas, dists) /\
    out = map (shape env) (zip3 docs metas dists) /\
    log_calls t' =
      (log_calls t ++
       [EvLoggingInfo "Search Query Log: " (MkLogEntry q f r)])%list /\
    exists t0, t' = (t0 ++ [EvLoggingInfo "Search Query Log: "
                              (MkLogEntry q f r)])%list.
Proof.
  intros S.
  apply search_permits_ok_inv in S
    as (emb & r & docs & metas & dists & E & Q & R & L & -> & ->).
  exists emb, r, docs, metas, dists. repeat split; try assumption.
  - rewrite log_calls_app. reflexivity.
  - exists (t ++ [ev_embed q; ev_query emb k f])%list.
    rewrite <- app_assoc. reflexivity.
Qed.

Lemma successful_search_is_logged_witness :
  exists emb r docs metas dists,
    collection_query Sample.env [emb] (Some 2) (build_where None)
                     include_fields = Ok r /\
    first_row r = Some (docs, metas, dists) /\
    fst (search_permits Sample.env "plumbing" None (Some 2) []) =
      Ok (map (shape Sample.env) (zip3 docs metas dists)) /\
    log_calls (snd (search_permits Sample.env "plumbing" None (Some 2) [])) =
      (log_calls [] ++
       [EvLoggingInfo "Search Query Log: " (MkLogEntry "plumbing" None r)])%list.
Proof.
  destruct (successful_search_is_logged Sample.env "plumbing" None (Some 2) []
              (snd (search_permits Sample.env "plumbing" None (Some 2) []))
              [MkItem "Electrical permit 101" [("city", "Austin")] Sample.eighth;
               MkItem "Plumbing permit 202" [("city", "Austin")] Sample.quarter]
              eq_refl)
    as (emb & r & docs & metas & dists & Q & R & O & L & _).
  exists emb, r, docs, metas, dists.
  split; [exact Q|]. split; [exact R|]. split; [|exact L].
  rewrite <- O. reflexivity.
Defined.

(** ** Shaping of a ragged or empty answer *)

Lemma zip3_firstn {A B C : Type} (a : list A) (b : list B) (c : list C) :
  map (fun n => fst (fst n)) (zip3 a b c) = firstn (length (zip3 a b c)) a /\
  map (fun n => snd (fst n)) (zip3 a b c) = firstn (length (zip3 a b c)) b /\
  map snd (zip3 a b c) = firstn (length (zip3 a b c)) c.
Proof.
  revert b c. induction a as [|x a IH]; intros [|y b] [|z c]; simpl; auto.
  destruct (IH b c) as (E1 & E2 & E3). now rewrite E1, E2, E3.
Qed.

(** X5. The shaping loop stops at the shortest of the three lists of the
    index's answer: a successful search returns as many items as the
    shortest list has entries, built from the leading entries of each
    list; what the longer lists hold beyond that is dropped, without an
    error. *)
Theorem shaping_stops_at_shortest_list (env : Env) (q : string)
    (f : option (dict pyval)) (k : option Z) (t t' : trace)
    (out : list SearchResultItem) :
  search_permits env q f k t = (Ok out, t') ->
  exists emb r docs metas dists,
    collection_query env [emb] k (build_where f) include_fields = Ok r /\
    first_row r = Some (docs, metas, dists) /\
    length out =
      Nat.min (length docs) (Nat.min (length metas) (length dists)) /\
    map document out = firstn (length out) docs /\
    map item_metadata out = firstn (length out) metas /\
    map similarity_score out =
      map (fun d => round env d 4) (firstn (length out) dists).
Proof.
  intros S.
  apply search_permits_ok_inv in S
    as (emb & r & docs & metas & dists & E & Q & R & L & -> & ->).
  exists emb, r, docs, metas, dists.
  destruct (zip3_firstn docs metas dists) as (E1 & E2 & E3).
  rewrite !length_map, !map_map.
  split; [exact Q|]. split; [exact R|]. split; [apply zip3_length|].
  split; [|split].
  - rewrite <- E1. apply map_ext. intros n. apply shape_fields.
  - rewrite <- E2. apply map_ext. intros n. apply shape_fields.
  - rewrite <- E3, map_map. apply map_ext. intros n. apply shape_fields.
Qed.

Lemma shaping_stops_at_shortest_list_witness :
  exists emb r docs metas dists,
    collection_query Sample.env_ragged [emb] (Some 3) (build_where None)
                     include_fields = Ok r /\
    first_row r = Some (docs, metas, dists) /\
    length [MkItem "Electrical permit 101" [("city", "Austin")] Sample.eighth;
            MkItem "Plumbing permit 202" [("city", "Austin")] Sample.quarter] =
      Nat.min (length docs) (Nat.min (length metas) (length dists)) /\
    map document
        [MkItem "Electrical permit 101" [("city", "Austin")] Sample.eighth;
         MkItem "Plumbing permit 202" [("city", "Austin")] Sample.quarter] =
      firstn 2 docs /\
    map item_metadata
        [MkItem "Electrical permit 101" [("city", "Austin")] Sample.eighth;
         MkItem "Plumbing permit 202" [("city", "Austin")] Sample.quarter] =
      firstn 2 metas /\
    map similarity_score
        [MkItem "Electrical permit 101" [("city", "Austin")] Sample.eighth;
         MkItem "Plumbing permit 202" [("city", "Austin")] Sample.quarter] =
      map (fun d => round Sample.env_ragged d 4) (firstn 2 dists).
Proof.
  apply (shaping_stops_at_shortest_list Sample.env_ragged "permit" None
           (Some 3) []
           (snd (search_permits Sample.env_ragged "permit" None (Some 3) []))).
  reflexivity.
Defined.

(** X6. When the answer of the index has no row for the query -- its
    documents, metadatas or distances list is empty -- reading [[0]]
    fails: the route answers 500 with the detail "list index out of
    range", returns no items, and nothing is logged. *)
Theorem rowless_answer_is_a_500 (env : Env) (body : json)
    (req : SearchRequest) (t : trace) (emb : list float) (r : QueryResult) :
  validate body = Ok req ->
  embed_result env (query req) = Ok emb ->
  collection_query env [emb] (top_k req) (build_where (filters req))
                   include_fields = Ok r ->
  documents r = [] \/ metadatas r = [] \/ distances r = [] ->
  post_search env body t =
    (MkResponse 500 (CDetail [("detail", "list index out of range")]),
     (t ++ [ev_embed (query req);
            ev_query emb (top_k req) (filters req)])%list).
Proof.
  intros V E Q Hrow.
  assert (R : first_row r = None).
  { unfold first_row.
    destruct (documents r) as [|d ds]; [reflexivity|].
    destruct (metadatas r) as [|m ms]; [reflexivity|].
    destruct (distances r) as [|x xs]; [reflexivity|].
    destruct Hrow as [H|[H|H]]; discriminate. }
  rewrite (post_search_valid env body req t V).
  rewrite search_permits_catch, search_permits_try_run, E, Q, R.
  reflexivity.
Qed.

Lemma rowless_answer_is_a_500_witness :
  post_search Sample.env_rowless
              (JObject [("query", JString "plumbing")]) [] =
    (MkResponse 500 (CDetail [("detail", "list index out of range")]),
     ([] ++ [ev_embed "plumbing";
             ev_query [Sample.half; Sample.quarter] (Some 5) None])%list).
Proof.
  apply (rowless_answer_is_a_500 Sample.env_rowless
           (JObject [("query", JString "plumbing")])
           (MkSearchRequest "plumbing" None (Some 5)) []
           [Sample.half; Sample.quarter] (MkQueryResult [] [] []));
    try reflexivity.
  now left.
Defined.

(** ** The answers of [POST /search] *)

(** X7. [POST /search] answers with one of three status codes: 422 when
    the body is not valid, 200 with [{"results": items}] when the search
    returned, and 500 with a detail text when it raised; nothing else. *)
Theorem post_search_status_codes (env : Env) (body : json) (t : trace) :
  (exists errs,
     validate body = Raise errs /\
     fst (post_search env body t) =
       MkResponse 422 (CValidation [("detail", errs)])) \/
  (exists req out,
     validate body = Ok req /\
     fst (search_permits env (query req) (filters req) (top_k req) t) = Ok out /\
     fst (post_search env body t) =
       MkResponse 200 (CResults [("results", out)])) \/
  (exists req e,
     validate body = Ok req /\
     fst (search_permits_try env (query req) (filters req) (top_k req) t) =
       Raise e /\
     fst (post_search env body t) =
       MkResponse 500 (CDetail [("detail", str_exn e)])).
Proof.
  destruct (validate body) as [req|errs] eqn:V.
  - rewrite (post_search_valid env body req t V).
    pose proof (search_permits_catch env (query req) (filters req)
                  (top_k req) t) as C.
    destruct (search_permits_try env (query req) (filters req) (top_k req) t)
      as [[out|e] t'] eqn:T; rewrite C.
    + right. left. exists req, out. rewrite C. repeat split.
    + right. right. exists req, e. rewrite T. repeat split.
  - left. exists errs. rewrite (post_search_invalid env body errs t V).
    split; reflexivity.
Qed.

(** ** From the body to the search *)

Lemma validate_str_values_spec (ms : dict json) (d : dict pyval) :
  validate_str_values ms = Some d ->
  Forall2 (fun jm kv =>
             fst kv = fst jm /\
             exists s, snd jm = JString s /\ snd kv = PyStr s) ms d.
Proof.
  revert d. induction ms as [|[k v] ms IH]; intros d; simpl.
  - intros H. injection H as <-. constructor.
  - destruct v; try discriminate.
    destruct (validate_str_values ms) as [d'|]; [|discriminate].
    intros H. injection H as <-. constructor.
    + simpl. split; [reflexivity|]. now exists s.
    + now apply IH.
Qed.

Lemma validate_ok_fields (m : dict json) (req : SearchRequest) :
  validate (JObject m) = Ok req ->
  validate_query m = Ok (query req) /\
  validate_filters m = Ok (filters req) /\
  validate_top_k m = Ok (top_k req).
Proof.
  rewrite validate_object.
  destruct (validate_query m) as [q|]; [|
    destruct (validate_filters m); destruct (validate_top_k m); discriminate].
  destruct (validate_filters m) as [f|]; [|
    destruct (validate_top_k m); discriminate].
  destruct (validate_top_k m) as [k|]; [|discriminate].
  intros H. injection H as <-. auto.
Qed.

(** X8. The filters of a valid body reach the search as they were sent:
    the same keys in the same order, each value the very text of the body
    (not trimmed, never [None]); the predicate the index receives is
    built from exactly these entries. *)
Theorem filters_reach_search_unchanged (env : Env) (members ms : dict json)
    (req : SearchRequest) (t : trace) :
  validate (JObject members) = Ok req ->
  dict_get "filters" members = Some (JObject ms) ->
  exists d,
    filters req = Some d /\
    Forall2 (fun jm kv =>
               fst kv = fst jm /\
               exists s, snd jm = JString s /\ snd kv = PyStr s) ms d /\
    forall emb,
      embed_result env (query req) = Ok emb ->
      index_calls (snd (post_search env (JObject members) t)) =
      (index_calls t ++
       [EvQuery [emb] (top_k req) (build_where (Some d)) include_fields])%list.
Proof.
  intros V F.
  destruct (validate_ok_fields members req V) as (_ & Vf & _).
  unfold validate_filters in Vf. rewrite F in Vf.
  destruct (validate_str_values ms) as [d|] eqn:S; [|discriminate].
  injection Vf as Vf. exists d. split; [now symmetry|].
  split; [now apply validate_str_values_spec|].
  intros emb E.
  rewrite (post_search_trace env _ req t V), search_permits_index_calls, E.
  now rewrite <- Vf.
Qed.

Lemma filters_reach_search_unchanged_witness :
  exists d,
    Some [("city", PyStr " Austin "); ("zip", PyStr "")] = Some d /\
    Forall2 (fun jm kv =>
               fst kv = fst jm /\
               exists s, snd jm = JString s /\ snd kv = PyStr s)
            [("city", JString " Austin "); ("zip", JString "")] d /\
    forall emb,
      embed_result Sample.env "permit" = Ok emb ->
      index_calls (snd (post_search Sample.env
        (JObject [("query", JString "permit");
                  ("filters", JObject [("city", JString " Austin ");
                                       ("zip", JString "")])]) [])) =
      (index_calls [] ++
       [EvQuery [emb] (Some 5) (build_where (Some d)) include_fields])%list.
Proof.
  apply (filters_reach_search_unchanged Sample.env
           [("query", JString "permit");
            ("filters", JObject [("city", JString " Austin ");
                                 ("zip", JString "")])]
           [("city", JString " Austin "); ("zip", JString "")]
           (MkSearchRequest "permit"
              (Some [("city", PyStr " Austin "); ("zip", PyStr "")])
              (Some 5)) []);
    reflexivity.
Defined.

(** X9. [top_k] may be null: the schema accepts it as [None], and the
    index is then queried with [n_results=None]; the declared default 5
    applies only when the field is missing. *)
Theorem null_top_k_reaches_index (env : Env) (members : dict json)
    (req : SearchRequest) (t : trace) :
  validate (JObject members) = Ok req ->
  dict_get "top_k" members = Some JNull ->
  top_k req = None /\
  forall emb,
    embed_result env (query req) = Ok emb ->
    index_calls (snd (post_search env (JObject members) t)) =
    (index_calls t ++
     [EvQuery [emb] None (build_where (filters req)) include_fields])%list.
Proof.
  intros V K.
  destruct (validate_ok_fields members req V) as (_ & _ & Vk).
  unfold validate_top_k in Vk. rewrite K in Vk. injection Vk as Vk.
  split; [now symmetry|].
  intros emb E.
  rewrite (post_search_trace env _ req t V), search_permits_index_calls, E.
  now rewrite <- Vk.
Qed.

Lemma null_top_k_reaches_index_witness :
  top_k (MkSearchRequest "permit" None None) = None /\
  forall emb,
    embed_result Sample.env "permit" = Ok emb ->
    index_calls (snd (post_search Sample.env
        (JObject [("query", JString "permit"); ("top_k", JNull)]) [])) =
    (index_calls [] ++
     [EvQuery [emb] None (build_where None) include_fields])%list.
Proof.
  apply (null_top_k_reaches_index Sample.env
           [("query", JString "permit"); ("top_k", JNull)]
           (MkSearchRequest "permit" None None) []);
    reflexivity.
Defined.

(** X10. A valid body whose [filters] is missing, null or an empty
    object is searched without a predicate: the index is queried with
    [where=None]. *)
Theorem missing_filters_mean_no_predicate (env : Env) (members : dict json)
    (req : SearchRequest) (t : trace) :
  validate (JObject members) = Ok req ->
  dict_get "filters" members = None \/
  dict_get "filters" members = Some JNull \/
  dict_get "filters" members = Some (JObject []) ->
  build_where (filters req) = None /\
  forall emb,
    embed_result env (query req) = Ok emb ->
    index_calls (snd (post_search env (JObject members) t)) =
    (index_calls t ++
     [EvQuery [emb] (top_k req) None include_fields])%list.
Proof.
  intros V F.
  destruct (validate_ok_fields members req V) as (_ & Vf & _).
  assert (B : build_where (filters req) = None).
  { unfold validate_filters in Vf.
    destruct F as [F|[F|F]]; rewrite F in Vf; simpl in Vf;
      injection Vf as <-; reflexivity. }
  split; [exact B|].
  intros emb E.
  rewrite (post_search_trace env _ req t V), search_permits_index_calls, E, B.
  reflexivity.
Qed.

Lemma missing_filters_mean_no_predicate_witness :
  build_where (filters (MkSearchRequest "permit" (Some []) (Some 3))) = None /\
  forall emb,
    embed_result Sample.env "permit" = Ok emb ->
    index_calls (snd (post_search Sample.env
        (JObject [("query", JString "permit"); ("filters", JObject []);
                  ("top_k", JInt 3)]) [])) =
    (index_calls [] ++
     [EvQuery [emb] (top_k (MkSearchRequest "permit" (Some []) (Some 3)))
              None include_fields])%list.
Proof.
  apply (missing_filters_mean_no_predicate Sample.env
           [("query", JString "permit"); ("filters", JObject []);
            ("top_k", JInt 3)]
           (MkSearchRequest "permit" (Some []) (Some 3)) []).
  - reflexivity.
  - right. right. reflexivity.
Defined.

(** ** More on the filter builder *)

Lemma collect_conditions_app (a b : dict pyval) :
  collect_conditions (a ++ b)%list [] =
  (collect_conditions a [] ++ collect_conditions b [])%list.
Proof.
  induction a as [|[k v] a IH]; simpl; [reflexivity|].
  destruct (keeps v); [|exact IH].
  rewrite (collect_conditions_acc (a ++ b)%list), (collect_conditions_acc a), IH.
  now rewrite app_assoc.
Qed.

Lemma build_where_collect (items : dict pyval) :
  build_where (Some items) =
  match collect_conditions items [] with
  | [] => None
  | c :: cs => Some [("$and", c :: cs)]
  end.
Proof.
  destruct (collect_conditions items []) as [|c cs] eqn:E.
  - now apply build_where_none.
  - rewrite <- E. apply build_where_some. rewrite E. discriminate.
Qed.

Lemma collect_conditions_blank (items : dict pyval) :
  (forall k v, In (k, v) items -> ~ present_nonblank v) ->
  collect_conditions items [] = [].
Proof.
  intros A. apply (Selects_all_dropped items);
    [apply collect_conditions_selects | exact A].
Qed.

Lemma Selects_conditions (items : dict pyval) (cs : list condition) :
  Selects items cs ->
  Forall (fun cnd => exists k v,
            cnd = [(k, v)] /\ In (k, v) items /\ present_nonblank v) cs /\
  (length cs <= length items)%nat.
Proof.
  induction 1 as [|k v rest cs P S [IHf IHl]|k v rest cs P S [IHf IHl]].
  - split; [constructor | apply le_n].
  - split.
    + constructor.
      * exists k, v. repeat split; [now left | apply P | apply P].
      * eapply Forall_impl; [|exact IHf].
        intros c (k' & v' & E & I & Q). exists k', v'.
        repeat split; [exact E | now right | apply Q | apply Q].
    + simpl. now apply le_n_S.
  - split.
    + eapply Forall_impl; [|exact IHf].
      intros c (k' & v' & E & I & Q). exists k', v'.
      repeat split; [exact E | now right | apply Q | apply Q].
    + simpl. now apply le_S.
Qed.

(** X11. Whenever a predicate is built it is [{"$and": conds}] with
    [conds] not empty: an empty conjunction is never sent.  Each
    condition is a dict with a single entry, taken from the filters, whose
    value is present and not blank, and there are no more conditions than
    filter entries. *)
Theorem predicate_is_a_nonempty_conjunction (f : option (dict pyval))
    (w : where_doc) :
  build_where f = Some w ->
  exists items c cs,
    f = Some items /\
    w = [("$and", c :: cs)] /\
    Forall (fun cnd => exists k v,
              cnd = [(k, v)] /\ In (k, v) items /\ present_nonblank v)
           (c :: cs) /\
    (length (c :: cs) <= length items)%nat.
Proof.
  destruct f as [items|]; [|discriminate].
  rewrite build_where_collect.
  pose proof (collect_conditions_selects items) as S.
  destruct (collect_conditions items []) as [|c cs]; [discriminate|].
  intros H. injection H as <-.
  destruct (Selects_conditions items (c :: cs) S) as [F L].
  exists items, c, cs. auto.
Qed.

Lemma predicate_is_a_nonempty_conjunction_witness :
  exists items c cs,
    Some Sample.filters_austin = Some items /\
    [("$and", [[("city", PyStr "Austin")]])] = [("$and", c :: cs)] /\
    Forall (fun cnd => exists k v,
              cnd = [(k, v)] /\ In (k, v) items /\ present_nonblank v)
           (c :: cs) /\
    (length (c :: cs) <= length items)%nat.
Proof.
  apply (predicate_is_a_nonempty_conjunction (Some Sample.filters_austin)).
  reflexivity.
Defined.

(** X12. An entry whose value is [None], empty or only white space is
    invisible to the index: with or without it, wherever it stands among
    the filters, the predicate built is the same. *)
Theorem blank_entry_is_invisible (a b : dict pyval) (k : string) (v : pyval) :
  ~ present_nonblank v ->
  build_where (Some (a ++ (k, v) :: b)%list) =
  build_where (Some (a ++ b)%list).
Proof.
  intros N. rewrite !build_where_collect, !collect_conditions_app.
  simpl. apply keeps_false_spec in N. now rewrite N.
Qed.

Lemma blank_entry_is_invisible_witness :
  build_where (Some ([("city", PyStr "Austin")] ++
                     ("state", PyStr "  ") :: [("zip", PyStr "78701")])%list) =
  build_where (Some ([("city", PyStr "Austin")] ++
                     [("zip", PyStr "78701")])%list).
Proof.
  apply (blank_entry_is_invisible [("city", PyStr "Austin")]
           [("zip", PyStr "78701")] "state" (PyStr "  ")).
  apply keeps_false_spec. reflexivity.
Defined.

(** X13. A single usable filter is still wrapped: when exactly one entry
    has a value that is present and not blank, the predicate is
    [{"$and": [{key: value}]}], a conjunction of one condition, and not
    the bare condition [{key: value}]. *)
Theorem single_filter_is_wrapped_in_and (a b : dict pyval) (k : string)
    (v : pyval) :
  present_nonblank v ->
  (forall k' v', In (k', v') a -> ~ present_nonblank v') ->
  (forall k' v', In (k', v') b -> ~ present_nonblank v') ->
  build_where (Some (a ++ (k, v) :: b)%list) = Some [("$and", [[(k, v)]])].
Proof.
  intros P A B.
  rewrite build_where_collect, collect_conditions_app.
  rewrite (collect_conditions_blank a A). simpl.
  apply keeps_spec in P. rewrite P.
  rewrite collect_conditions_acc, (collect_conditions_blank b B).
  reflexivity.
Qed.

Lemma single_filter_is_wrapped_in_and_witness :
  build_where (Some ([("state", PyStr "")] ++
                     ("city", PyStr "Austin") :: [("zip", PyNone)])%list) =
  Some [("$and", [[("city", PyStr "Austin")]])].
Proof.
  apply (single_filter_is_wrapped_in_and [("state", PyStr "")]
           [("zip", PyNone)] "city" (PyStr "Austin")).
  - apply keeps_spec. reflexivity.
  - intros k' v' [E|[]]. injection E as <- <-.
    apply keeps_false_spec. reflexivity.
  - intros k' v' [E|[]]. injection E as <- <-.
    apply keeps_false_spec. reflexivity.
Defined.

Lemma blank_false_iff (s : string) :
  PyStr.blank s = false <->
  exists c, In c (list_ascii_of_string s) /\ PyStr.isspace c = false.
Proof.
  induction s as [|c s IH]; simpl.
  - split; [discriminate | intros (c & [] & _)].
  - destruct (PyStr.isspace c) eqn:C; simpl.
    + rewrite IH. split.
      * intros (c' & I & H). exists c'. auto.
      * intros (c' & [E|I] & H); [congruence | eauto].
    + split; [|reflexivity]. intros _. exists c. auto.
Qed.

(** X14. The test of line 66 keeps a value exactly when it is a text
    with at least one character that is not white space; white space
    around such a character does not matter, [None] and texts of white
    space only are not kept. *)
Theorem value_is_kept_iff_it_has_a_visible_character (v : pyval) :
  keeps v = true <->
  exists s, v = PyStr s /\
    exists c, In c (list_ascii_of_string s) /\ PyStr.isspace c = false.
Proof.
  rewrite keeps_spec. split.
  - intros P. destruct v as [|s]; [now destruct P|].
    exists s. split; [reflexivity|]. apply blank_false_iff.
    destruct (PyStr.blank s) eqn:B; [|reflexivity].
    exfalso. apply (proj2 (not_present_nonblank (PyStr s))); [|exact P].
    right. now exists s.
  - intros (s & -> & H). apply blank_false_iff in H.
    split; [discriminate|]. simpl. intros E.
    apply PyStrFacts.strip_empty in E. congruence.
Qed.
